(** * Voice-input session controller of the home screen

    A shallow embedding of the speech-recognition part of
    [src/app/(tabs)/index.tsx]: the [VoiceState] record, the seven native
    callbacks, the four handlers installed on the browser recognition
    object, the mount effect, [startListening] and [stopListening].

    The component is single threaded and callback driven, so every
    handler is a state transformer over the component state.  Calls to
    collaborators (React state setters, [Alert], [console], the two
    speech back ends, the pulse animation) are appended, in program
    order, to a trace kept next to the state. *)

From Stdlib Require Import String List Bool Arith Lia.
Import ListNotations.
Local Open Scope string_scope.
Local Open Scope list_scope.

(** ** Data model *)

(** [interface VoiceState].  The source field [end] is spelled [end_]
    here, [end] being reserved. *)
Record VoiceState : Type := mkVoiceState {
  recognized : string;
  pitch : string;
  error : string;
  end_ : string;
  started : bool;
  results : list string;
  partialResults : list string
}.

(** The mark stored in [recognized] and [end]. *)
Definition CHECK_MARK : string := "√".

(** The object literal handed to [useState<VoiceState>] and, again, to
    [setVoiceState] at the top of [startListening]. *)
Definition emptyVoiceState : VoiceState :=
  {| recognized := ""; pitch := ""; error := ""; end_ := "";
     started := false; results := []; partialResults := [] |}.

(** Object spread with one or two overridden fields,
    [{ ...prev, field: x }]. *)
Definition with_started (b : bool) (prev : VoiceState) : VoiceState :=
  {| recognized := recognized prev; pitch := pitch prev; error := error prev;
     end_ := end_ prev; started := b; results := results prev;
     partialResults := partialResults prev |}.

Definition with_recognized (x : string) (prev : VoiceState) : VoiceState :=
  {| recognized := x; pitch := pitch prev; error := error prev;
     end_ := end_ prev; started := started prev; results := results prev;
     partialResults := partialResults prev |}.

Definition with_end (x : string) (prev : VoiceState) : VoiceState :=
  {| recognized := recognized prev; pitch := pitch prev; error := error prev;
     end_ := x; started := started prev; results := results prev;
     partialResults := partialResults prev |}.

Definition with_error (x : string) (prev : VoiceState) : VoiceState :=
  {| recognized := recognized prev; pitch := pitch prev; error := x;
     end_ := end_ prev; started := started prev; results := results prev;
     partialResults := partialResults prev |}.

Definition with_results (x : list string) (prev : VoiceState) : VoiceState :=
  {| recognized := recognized prev; pitch := pitch prev; error := error prev;
     end_ := end_ prev; started := started prev; results := x;
     partialResults := partialResults prev |}.

Definition with_partialResults (x : list string) (prev : VoiceState)
  : VoiceState :=
  {| recognized := recognized prev; pitch := pitch prev; error := error prev;
     end_ := end_ prev; started := started prev; results := results prev;
     partialResults := x |}.

Definition with_pitch (x : string) (prev : VoiceState) : VoiceState :=
  {| recognized := recognized prev; pitch := x; error := error prev;
     end_ := end_ prev; started := started prev; results := results prev;
     partialResults := partialResults prev |}.

(** *** Payloads of the native callbacks ([@react-native-voice/voice]) *)

Record SpeechErrorObject : Type := mkSpeechErrorObject {
  code : option string;
  message : option string
}.

(** [SpeechErrorEvent]: [{ error?: { code?, message? } }]. *)
Record SpeechErrorEvent : Type := mkSpeechErrorEvent {
  err_error : option SpeechErrorObject
}.

(** [SpeechResultsEvent]: [{ value?: string[] }]. *)
Record SpeechResultsEvent : Type := mkSpeechResultsEvent {
  value : option (list string)
}.

(** The seven callbacks registered on [Voice] in the mobile set-up. *)
Inductive NativeEvent : Type :=
| SpeechStart
| SpeechRecognized
| SpeechEnd
| SpeechError (e : SpeechErrorEvent)
| SpeechResults (e : SpeechResultsEvent)
| SpeechPartialResults (e : SpeechResultsEvent)
| SpeechVolumeChanged (v : string).

(** *** Payloads of the browser recognition object *)

(** One entry of [event.results]: [event.results[i][0].transcript] is
    the transcript of its first alternative, [event.results[i].isFinal]
    its flag.  A recognition result always carries a first alternative. *)
Record SpeechRecognitionResult : Type := mkSpeechRecognitionResult {
  transcript0 : string;
  isFinal : bool
}.

Record SpeechRecognitionEvent : Type := mkSpeechRecognitionEvent {
  resultIndex : nat;
  ev_results : list SpeechRecognitionResult
}.

Inductive WebEvent : Type :=
| WebStartEv
| WebResultEv (event : SpeechRecognitionEvent)
| WebEndEv
| WebErrorEv (event_error : string).

(** The object built in the mount effect:
    [continuous = true; interimResults = true; lang = 'en-US']. *)
Record Recognition : Type := mkRecognition {
  continuous : bool;
  interimResults : bool;
  lang : string
}.

(** *** Runtime platform *)

(** [Platform.OS] and the probe
    [typeof window !== 'undefined' && 'webkitSpeechRecognition' in window]. *)
Record Platform : Type := mkPlatform {
  OS : string;
  hasWebkitSpeechRecognition : bool
}.

Definition isWeb (p : Platform) : bool := (OS p =? "web")%string.

(** How a call to a back-end primitive completes: it returns (the
    promise resolves) or it throws (the promise rejects). *)
Inductive Outcome : Type :=
| Resolves
| Rejects (reason : string).

Record Backend : Type := mkBackend {
  start_outcome : Outcome;
  stop_outcome : Outcome
}.

(** *** Trace of collaborator calls *)

(** [SetVoiceState v] records a call of [setVoiceState]; [v] is the
    state the call installs (for an updater [prev => ...], the updater
    applied to the state current at the call). *)
Inductive Call : Type :=
| SetVoiceState (v : VoiceState)
| SetRecognizedText (s : string)
| SetWebRecognition (r : Recognition)
| StartPulseAnimation
| StopPulseAnimation
| ConsoleLog (label : string) (e : NativeEvent)
| ConsoleError (label : string) (err : string)
| AlertAlert (title : string) (msg : string)
| RegisterVoiceCallbacks
| VoiceStart (locale : string)
| VoiceStop
| WebStart
| WebStop.

(** The hooks of [HomeScreen] the voice logic reads and writes, with the
    trace. *)
Record Screen : Type := mkScreen {
  voiceState : VoiceState;
  recognizedText : string;
  webRecognition : option Recognition;
  calls : list Call
}.

(** The values given to the three [useState] hooks. *)
Definition initialScreen : Screen :=
  {| voiceState := emptyVoiceState; recognizedText := "";
     webRecognition := None; calls := [] |}.

(** ** Handlers as actions *)

(** An action runs on the component state and either returns or throws;
    in both cases the state it reached is kept, as in the source, where
    a [catch] block sees every write made before the [throw]. *)
Inductive Completion (A : Type) : Type :=
| Normal (a : A)
| Thrown (err : string).
Arguments Normal {A} a.
Arguments Thrown {A} err.

Definition Act (A : Type) : Type := Screen -> Completion A * Screen.

Definition ret {A : Type} (a : A) : Act A := fun s => (Normal a, s).

Definition bind {A B : Type} (m : Act A) (k : A -> Act B) : Act B :=
  fun s =>
    match m s with
    | (Normal a, s') => k a s'
    | (Thrown e, s') => (Thrown e, s')
    end.

Definition throw {A : Type} (e : string) : Act A := fun s => (Thrown e, s).

Definition try_catch {A : Type} (body : Act A) (handler : string -> Act A)
  : Act A :=
  fun s =>
    match body s with
    | (Normal a, s') => (Normal a, s')
    | (Thrown e, s') => handler e s'
    end.

Declare Scope act_scope.
Delimit Scope act_scope with act.
Notation "m1 ;; m2" := (bind m1 (fun _ => m2))
  (at level 61, right associativity) : act_scope.
Notation "x <- m1 ;; m2" := (bind m1 (fun x => m2))
  (at level 61, m1 at next level, right associativity) : act_scope.
Local Open Scope act_scope.

Definition exec {A : Type} (m : Act A) (s : Screen) : Screen := snd (m s).
Definition completion {A : Type} (m : Act A) (s : Screen) : Completion A :=
  fst (m s).

(** *** Primitive calls *)

Definition call (c : Call) : Act unit :=
  fun s =>
    (Normal tt,
     {| voiceState := voiceState s; recognizedText := recognizedText s;
        webRecognition := webRecognition s; calls := calls s ++ [c] |}).

Definition setVoiceState (f : VoiceState -> VoiceState) : Act unit :=
  fun s =>
    let v := f (voiceState s) in
    (Normal tt,
     {| voiceState := v; recognizedText := recognizedText s;
        webRecognition := webRecognition s;
        calls := calls s ++ [SetVoiceState v] |}).

Definition setRecognizedText (t : string) : Act unit :=
  fun s =>
    (Normal tt,
     {| voiceState := voiceState s; recognizedText := t;
        webRecognition := webRecognition s;
        calls := calls s ++ [SetRecognizedText t] |}).

Definition setWebRecognition (r : Recognition) : Act unit :=
  fun s =>
    (Normal tt,
     {| voiceState := voiceState s; recognizedText := recognizedText s;
        webRecognition := Some r;
        calls := calls s ++ [SetWebRecognition r] |}).

Definition getWebRecognition : Act (option Recognition) :=
  fun s => (Normal (webRecognition s), s).

Definition startPulseAnimation : Act unit := call StartPulseAnimation.
Definition stopPulseAnimation : Act unit := call StopPulseAnimation.
Definition console_log (label : string) (e : NativeEvent) : Act unit :=
  call (ConsoleLog label e).
Definition console_error (label : string) (err : string) : Act unit :=
  call (ConsoleError label err).
Definition Alert_alert (title msg : string) : Act unit :=
  call (AlertAlert title msg).

(** A back-end primitive is called, then completes as the back end
    decides. *)
Definition settle (o : Outcome) : Act unit :=
  match o with
  | Resolves => ret tt
  | Rejects reason => throw reason
  end.

Definition Voice_start (b : Backend) (locale : string) : Act unit :=
  call (VoiceStart locale) ;; settle (start_outcome b).
Definition Voice_stop (b : Backend) : Act unit :=
  call VoiceStop ;; settle (stop_outcome b).
Definition webRecognition_start (b : Backend) : Act unit :=
  call WebStart ;; settle (start_outcome b).
Definition webRecognition_stop (b : Backend) : Act unit :=
  call WebStop ;; settle (stop_outcome b).

(** JavaScript truthiness of a string: only [''] is falsy. *)
Definition truthy (s : string) : bool :=
  match s with
  | EmptyString => false
  | String _ _ => true
  end.

(** A sample rendering of the optional error object, in the shape
    [JSON.stringify] gives for texts that need no escaping, with the
    keys in declaration order.  It instantiates the parameter of the
    development on concrete runs. *)
Definition dquote : string := String (Ascii.ascii_of_nat 34) "".

Definition render_field (key : string) (v : option string) : list string :=
  match v with
  | Some x =>
      [(dquote ++ key ++ dquote ++ ":" ++ dquote ++ x ++ dquote)%string]
  | None => []
  end.

Definition render_error (o : option SpeechErrorObject) : string :=
  match o with
  | Some e =>
      ("{" ++ String.concat ","
                (render_field "code" (code e)
                 ++ render_field "message" (message e))%list
           ++ "}")%string
  | None => "undefined"
  end.

Section Controller.

(** [JSON.stringify] on the optional error object of a native error
    event.  It belongs to the JavaScript runtime, not to this
    repository, and the key order of the object is chosen by the native
    module, so the development is parametric in it. *)
Variable JSON_stringify : option SpeechErrorObject -> string.

(** *** Native callbacks *)

Definition onSpeechStart : Act unit :=
  console_log "onSpeechStart: " SpeechStart ;;
  setVoiceState (fun prev => with_started true prev) ;;
  startPulseAnimation.

Definition onSpeechRecognized : Act unit :=
  console_log "onSpeechRecognized: " SpeechRecognized ;;
  setVoiceState (fun prev => with_recognized CHECK_MARK prev).

Definition onSpeechEnd : Act unit :=
  console_log "onSpeechEnd: " SpeechEnd ;;
  setVoiceState (fun prev => with_started false (with_end CHECK_MARK prev)) ;;
  stopPulseAnimation.

(** [e.error?.message || 'Unknown error'] *)
Definition error_message_or_unknown (e : SpeechErrorEvent) : string :=
  match err_error e with
  | Some o =>
      match message o with
      | Some m => if truthy m then m else "Unknown error"
      | None => "Unknown error"
      end
  | None => "Unknown error"
  end.

Definition onSpeechError (e : SpeechErrorEvent) : Act unit :=
  console_log "onSpeechError: " (SpeechError e) ;;
  setVoiceState (fun prev =>
    with_started false (with_error (JSON_stringify (err_error e)) prev)) ;;
  stopPulseAnimation ;;
  Alert_alert "Speech Recognition Error"
              ("Error: " ++ error_message_or_unknown e).

(** [if (e.value && e.value.length > 0)]: an absent or an empty
    candidate list leaves everything as it was. *)
Definition onSpeechResults (e : SpeechResultsEvent) : Act unit :=
  console_log "onSpeechResults: " (SpeechResults e) ;;
  match value e with
  | Some (first :: rest) =>
      setVoiceState (fun prev => with_results (first :: rest) prev) ;;
      setRecognizedText first
  | Some [] => ret tt
  | None => ret tt
  end.

(** [if (e.value)]: an array, even an empty one, is truthy. *)
Definition onSpeechPartialResults (e : SpeechResultsEvent) : Act unit :=
  console_log "onSpeechPartialResults: " (SpeechPartialResults e) ;;
  match value e with
  | Some l => setVoiceState (fun prev => with_partialResults l prev)
  | None => ret tt
  end.

Definition onSpeechVolumeChanged (v : string) : Act unit :=
  console_log "onSpeechVolumeChanged: " (SpeechVolumeChanged v) ;;
  setVoiceState (fun prev => with_pitch v prev).

(** *** Handlers installed on the browser recognition object *)

Definition recognition_onstart : Act unit :=
  setVoiceState (fun prev => with_started true prev) ;;
  startPulseAnimation.

(** The [for] loop of [recognition.onresult], from index [i], with
    [trips] iterations left; it returns
    [(interimTranscript, finalTranscript)]. *)
Fixpoint onresult_loop (rs : list SpeechRecognitionResult) (i trips : nat)
    (interimTranscript finalTranscript : string) : string * string :=
  match trips with
  | O => (interimTranscript, finalTranscript)
  | S trips' =>
      match nth_error rs i with
      | None => (interimTranscript, finalTranscript)
      | Some r =>
          let transcript := transcript0 r in
          if isFinal r
          then onresult_loop rs (S i) trips' interimTranscript
                             (finalTranscript ++ transcript)
          else onresult_loop rs (S i) trips'
                             (interimTranscript ++ transcript) finalTranscript
      end
  end.

(** [for (let i = event.resultIndex; i < event.results.length; i++)],
    started from two empty accumulators. *)
Definition onresult_transcripts (event : SpeechRecognitionEvent)
  : string * string :=
  onresult_loop (ev_results event) (resultIndex event)
                (length (ev_results event) - resultIndex event) "" "".

Definition recognition_onresult (event : SpeechRecognitionEvent) : Act unit :=
  let '(interimTranscript, finalTranscript) := onresult_transcripts event in
  (if truthy finalTranscript
   then setRecognizedText finalTranscript ;;
        setVoiceState (fun prev => with_results [finalTranscript] prev)
   else ret tt) ;;
  (if truthy interimTranscript
   then setVoiceState (fun prev => with_partialResults [interimTranscript] prev)
   else ret tt).

Definition recognition_onend : Act unit :=
  setVoiceState (fun prev => with_started false prev) ;;
  stopPulseAnimation.

Definition recognition_onerror (event_error : string) : Act unit :=
  console_error "Speech recognition error:" event_error ;;
  setVoiceState (fun prev => with_error event_error (with_started false prev)) ;;
  stopPulseAnimation ;;
  Alert_alert "Speech Recognition Error" ("Error: " ++ event_error).

(** *** The mount effect *)

Definition newRecognition : Recognition :=
  {| continuous := true; interimResults := true; lang := "en-US" |}.

Definition mountEffect (p : Platform) : Act unit :=
  if isWeb p then
    if hasWebkitSpeechRecognition p
    then setWebRecognition newRecognition
    else Alert_alert "Speech Recognition Not Supported"
           "Your browser does not support speech recognition. Please use Chrome or Safari."
  else call RegisterVoiceCallbacks.

(** *** [startListening] and [stopListening] *)

(** The [try] block of [startListening]. *)
Definition startListening_try (p : Platform) (b : Backend) : Act unit :=
  if isWeb p then
    w <- getWebRecognition ;;
    match w with
    | Some _ => webRecognition_start b
    | None => Alert_alert "Error" "Speech recognition not available"
    end
  else Voice_start b "en-US".

Definition startListening (p : Platform) (b : Backend) : Act unit :=
  setVoiceState (fun _ =>
    {| recognized := ""; pitch := ""; error := ""; end_ := "";
       started := false; results := []; partialResults := [] |}) ;;
  setRecognizedText "" ;;
  try_catch (startListening_try p b)
    (fun error =>
       console_error "Error starting voice recognition:" error ;;
       Alert_alert "Error"
         "Failed to start voice recognition. Please check microphone permissions.").

Definition stopListening (p : Platform) (b : Backend) : Act unit :=
  try_catch
    (if isWeb p then
       w <- getWebRecognition ;;
       match w with
       | Some _ => webRecognition_stop b
       | None => ret tt
       end
     else Voice_stop b)
    (fun error => console_error "Error stopping voice recognition:" error).

(** *** Event folding and runs of the screen *)

Inductive BackendEvent : Type :=
| NativeEv (e : NativeEvent)
| BrowserEv (e : WebEvent).

Definition dispatch (ev : BackendEvent) : Act unit :=
  match ev with
  | NativeEv SpeechStart => onSpeechStart
  | NativeEv SpeechRecognized => onSpeechRecognized
  | NativeEv SpeechEnd => onSpeechEnd
  | NativeEv (SpeechError e) => onSpeechError e
  | NativeEv (SpeechResults e) => onSpeechResults e
  | NativeEv (SpeechPartialResults e) => onSpeechPartialResults e
  | NativeEv (SpeechVolumeChanged v) => onSpeechVolumeChanged v
  | BrowserEv WebStartEv => recognition_onstart
  | BrowserEv (WebResultEv event) => recognition_onresult event
  | BrowserEv WebEndEv => recognition_onend
  | BrowserEv (WebErrorEv event_error) => recognition_onerror event_error
  end.

(** The state after the back end has delivered [evs], oldest first. *)
Definition fold_events (evs : list BackendEvent) (s : Screen) : Screen :=
  fold_left (fun acc ev => exec (dispatch ev) acc) evs s.

Definition is_end_event (ev : BackendEvent) : bool :=
  match ev with
  | NativeEv SpeechEnd | BrowserEv WebEndEv => true
  | _ => false
  end.

Definition is_error_event (ev : BackendEvent) : bool :=
  match ev with
  | NativeEv (SpeechError _) | BrowserEv (WebErrorEv _) => true
  | _ => false
  end.

(** What can happen to a mounted screen: the mic button runs
    [startListening] or [stopListening] (the back end answering as [b]
    says), or the back end delivers an event. *)
Inductive Step : Type :=
| PressStart (b : Backend)
| PressStop (b : Backend)
| Deliver (ev : BackendEvent).

Definition step (p : Platform) (s : Screen) (a : Step) : Screen :=
  match a with
  | PressStart b => exec (startListening p b) s
  | PressStop b => exec (stopListening p b) s
  | Deliver ev => exec (dispatch ev) s
  end.

Definition run (p : Platform) (steps : list Step) (s : Screen) : Screen :=
  fold_left (step p) steps s.

(** The screen once mounted on platform [p]. *)
Definition mounted (p : Platform) : Screen := exec (mountEffect p) initialScreen.

(** Calls of a back end's start primitive. *)
Definition is_start_call (c : Call) : bool :=
  match c with
  | VoiceStart _ | WebStart => true
  | _ => false
  end.

Definition is_state_write (c : Call) : bool :=
  match c with
  | SetVoiceState _ | SetRecognizedText _ => true
  | _ => false
  end.

(** Concatenation, in order, of the first-alternative transcripts of
    the entries of [rs] whose [isFinal] flag is [fin]. *)
Definition joined (fin : bool) (rs : list SpeechRecognitionResult) : string :=
  fold_right String.append ""
    (map transcript0 (filter (fun r => Bool.eqb (isFinal r) fin) rs)).

(** The calls made by the [try]/[catch] part of [startListening], read
    off its branches: the start primitive of the active back end,
    followed, when it throws, by the two calls of the [catch] block; or
    the notice when the browser has no recognition object. *)
Definition delegation_calls (p : Platform) (b : Backend)
    (w : option Recognition) : list Call :=
  let failure :=
    match start_outcome b with
    | Resolves => []
    | Rejects reason =>
        [ConsoleError "Error starting voice recognition:" reason;
         AlertAlert "Error"
           "Failed to start voice recognition. Please check microphone permissions."]
    end in
  if isWeb p then
    match w with
    | Some _ => WebStart :: failure
    | None => [AlertAlert "Error" "Speech recognition not available"]
    end
  else VoiceStart "en-US" :: failure.

(** The calls made by [stopListening], read off its branches. *)
Definition stop_calls (p : Platform) (b : Backend)
    (w : option Recognition) : list Call :=
  let failure :=
    match stop_outcome b with
    | Resolves => []
    | Rejects reason =>
        [ConsoleError "Error stopping voice recognition:" reason]
    end in
  if isWeb p then
    match w with
    | Some _ => WebStop :: failure
    | None => []
    end
  else VoiceStop :: failure.

(** Whether [startListening] has a back end to delegate to: always on
    a native platform, and on the web once the mount effect has stored a
    recognition object. *)
Definition has_active_backend (p : Platform) (s : Screen) : bool :=
  if isWeb p then
    match webRecognition s with
    | Some _ => true
    | None => false
    end
  else true.

(** The start primitive of the back end selected by the platform. *)
Definition start_call (p : Platform) : Call :=
  if isWeb p then WebStart else VoiceStart "en-US".

Definition is_stop_call (c : Call) : bool :=
  match c with
  | VoiceStop | WebStop => true
  | _ => false
  end.

Definition is_console_error (c : Call) : bool :=
  match c with
  | ConsoleError _ _ => true
  | _ => false
  end.

Definition rejects (o : Outcome) : bool :=
  match o with
  | Resolves => false
  | Rejects _ => true
  end.

Definition is_alert (c : Call) : bool :=
  match c with
  | AlertAlert _ _ => true
  | _ => false
  end.

(** ** The rest of the screen *)

(** *** What the screen renders from the voice state *)

Definition PLACEHOLDER_QUESTION : string := "Can you do my makeup?".

(** The question text:
    [recognizedText || (voiceState.partialResults.length > 0
                        ? voiceState.partialResults[0]
                        : "Can you do my makeup?")]. *)
Definition questionText (s : Screen) : string :=
  if truthy (recognizedText s) then recognizedText s
  else
    match partialResults (voiceState s) with
    | first :: _ => first
    | [] => PLACEHOLDER_QUESTION
    end.

(** The status text: [voiceState.started ? 'Listening...' : '']. *)
Definition statusText (s : Screen) : string :=
  if started (voiceState s) then "Listening..." else "".

(** The mic button:
    [onPress={voiceState.started ? stopListening : startListening}]. *)
Definition micButton_onPress (p : Platform) (b : Backend) : Act unit :=
  fun s =>
    if started (voiceState s) then stopListening p b s
    else startListening p b s.

(** What a user and a back end can do to the rendered screen: press the
    mic button, or deliver an event. *)
Inductive Gesture : Type :=
| PressMic (b : Backend)
| Receive (ev : BackendEvent).

Definition react (p : Platform) (s : Screen) (g : Gesture) : Screen :=
  match g with
  | PressMic b => exec (micButton_onPress p b) s
  | Receive ev => exec (dispatch ev) s
  end.

Definition session (p : Platform) (gs : list Gesture) (s : Screen) : Screen :=
  fold_left (react p) gs s.

Definition events_of (gs : list Gesture) : list BackendEvent :=
  flat_map (fun g => match g with
                     | PressMic _ => []
                     | Receive ev => [ev]
                     end) gs.

(** *** Classes of events and calls *)

Definition is_start_event (ev : BackendEvent) : bool :=
  match ev with
  | NativeEv SpeechStart | BrowserEv WebStartEv => true
  | _ => false
  end.

(** The events whose handler can write [results] and the transcript. *)
Definition is_results_event (ev : BackendEvent) : bool :=
  match ev with
  | NativeEv (SpeechResults _) | BrowserEv (WebResultEv _) => true
  | _ => false
  end.

Definition is_browser_event (ev : BackendEvent) : bool :=
  match ev with
  | BrowserEv _ => true
  | NativeEv _ => false
  end.

(** The listening flag an event leaves, given the flag before it. *)
Definition next_listening (listening : bool) (ev : BackendEvent) : bool :=
  if is_start_event ev then true
  else if is_end_event ev || is_error_event ev then false
  else listening.

(** Whether the pulse animation is running at the end of a trace: the
    last pulse call decides. *)
Definition pulse_step (running : bool) (c : Call) : bool :=
  match c with
  | StartPulseAnimation => true
  | StopPulseAnimation => false
  | _ => running
  end.

Definition pulsing (cs : list Call) : bool := fold_left pulse_step cs false.

(** The alert an error event raises. *)
Definition error_alert (ev : BackendEvent) : list Call :=
  match ev with
  | NativeEv (SpeechError e) =>
      [AlertAlert "Speech Recognition Error"
                  ("Error: " ++ error_message_or_unknown e)]
  | BrowserEv (WebErrorEv event_error) =>
      [AlertAlert "Speech Recognition Error" ("Error: " ++ event_error)]
  | _ => []
  end.

(** Steps of a run that leave a published transcript alone: a press
    that stops, and every delivery but a results event. *)
Definition keeps_transcript (a : Step) : bool :=
  match a with
  | PressStart _ => false
  | PressStop _ => true
  | Deliver ev => negb (is_results_event ev)
  end.

Definition is_browser_step (a : Step) : bool :=
  match a with
  | PressStart _ | PressStop _ => true
  | Deliver ev => is_browser_event ev
  end.

(** Candidate lists as the browser handlers store them: at most one
    entry, and no empty string. *)
Definition singleton_nonempty (l : list string) : bool :=
  (List.length l <=? 1)%nat && forallb truthy l.

(** *** Image selection *)

(** One entry of [result.assets]. *)
Record ImagePickerAsset : Type := mkImagePickerAsset {
  uri : string
}.

(** What [ImagePicker.launchImageLibraryAsync] resolves to: the picker
    was dismissed ([canceled: true], [assets: null]) or it returns the
    assets ([canceled: false]). *)
Inductive ImagePickerResult : Type :=
| PickerCanceled
| PickerSuccess (assets : list ImagePickerAsset).

(** The answers of the image picker to one run of [pickImage]:
    [permissionResult.granted] and the result of the launch. *)
Record PickerAnswers : Type := mkPickerAnswers {
  granted : bool;
  launch_result : ImagePickerResult
}.

Inductive PickerCall : Type :=
| RequestMediaLibraryPermissions
| PickerAlert (title : string) (msg : string)
| LaunchImageLibrary
| SetSelectedImage (image_uri : string).

(** The [selectedImage] hook, with the trace of the calls [pickImage]
    makes. *)
Record ImageState : Type := mkImageState {
  selectedImage : option string;
  picker_calls : list PickerCall
}.

Definition pickImage (env : PickerAnswers) (g : ImageState) : ImageState :=
  let g1 := {| selectedImage := selectedImage g;
               picker_calls := picker_calls g
                               ++ [RequestMediaLibraryPermissions] |} in
  if negb (granted env) then
    {| selectedImage := selectedImage g1;
       picker_calls := picker_calls g1
         ++ [PickerAlert "Permission required"
               "Permission to access camera roll is required!"] |}
  else
    let g2 := {| selectedImage := selectedImage g1;
                 picker_calls := picker_calls g1 ++ [LaunchImageLibrary] |} in
    match launch_result env with
    | PickerSuccess (first :: _) =>
        {| selectedImage := Some (uri first);
           picker_calls := picker_calls g2 ++ [SetSelectedImage (uri first)] |}
    | PickerSuccess [] => g2
    | PickerCanceled => g2
    end.


Definition is_launch (c : PickerCall) : bool :=
  match c with
  | LaunchImageLibrary => true
  | _ => false
  end.


(** Gestures that cannot end a session: a press of the mic button, and
    every delivery but an end or an error event. *)
Definition stays_listening (g : Gesture) : bool :=
  match g with
  | PressMic _ => true
  | Receive ev => negb (is_end_event ev || is_error_event ev)
  end.

(** The calls an action made, given the trace before and after it. *)
Definition calls_made {C : Type} (before after : list C) : list C :=
  skipn (List.length before) after.

(** ** Basic facts about actions *)

Ltac unfold_handlers :=
  unfold startListening, startListening_try, stopListening, mountEffect,
    onSpeechStart, onSpeechRecognized, onSpeechEnd, onSpeechError,
    onSpeechResults, onSpeechPartialResults, onSpeechVolumeChanged,
    recognition_onstart, recognition_onend, recognition_onerror,
    Voice_start, Voice_stop, webRecognition_start, webRecognition_stop,
    startPulseAnimation, stopPulseAnimation, console_log, console_error,
    Alert_alert, getWebRecognition, settle.

Ltac unfold_monad :=
  unfold exec, completion, try_catch, bind, ret, throw, call, setVoiceState,
    setRecognizedText, setWebRecognition.

Ltac simp_trace := cbn; rewrite <- ?app_assoc; cbn.

Lemma fold_events_snoc (evs : list BackendEvent) (ev : BackendEvent)
    (s : Screen) :
  fold_events (evs ++ [ev]) s = exec (dispatch ev) (fold_events evs s).
Proof. unfold fold_events. rewrite fold_left_app. reflexivity. Qed.

(** The browser [onresult] handler never throws and only appends to the
    trace; its effect is computed once here. *)
Lemma recognition_onresult_run (event : SpeechRecognitionEvent) (s : Screen) :
  recognition_onresult event s =
  let F := snd (onresult_transcripts event) in
  let I := fst (onresult_transcripts event) in
  let v1 := if truthy F then with_results [F] (voiceState s) else voiceState s in
  let v2 := if truthy I then with_partialResults [I] v1 else v1 in
  (Normal tt,
   {| voiceState := v2;
      recognizedText := if truthy F then F else recognizedText s;
      webRecognition := webRecognition s;
      calls := calls s
               ++ (if truthy F
                   then [SetRecognizedText F;
                         SetVoiceState (with_results [F] (voiceState s))]
                   else [])
               ++ (if truthy I then [SetVoiceState v2] else []) |}).
Proof.
  unfold recognition_onresult.
  destruct (onresult_transcripts event) as [I F]. cbn [fst snd].
  destruct s as [v t w c].
  destruct (truthy F), (truthy I); unfold_monad; simp_trace;
    rewrite ?app_nil_r; reflexivity.
Qed.

(** Every event handler returns normally. *)
Lemma dispatch_normal (ev : BackendEvent) (s : Screen) :
  completion (dispatch ev) s = Normal tt.
Proof.
  destruct ev as [[| | | e | e | e | v] | [| event | | err]]; cbn [dispatch];
    try (unfold completion; rewrite recognition_onresult_run; reflexivity);
    unfold_handlers; unfold_monad; cbn; try reflexivity.
  - destruct (value e) as [[| first rest] |]; reflexivity.
  - destruct (value e) as [l |]; reflexivity.
Qed.

(** ** The reset performed by [startListening] *)

(** The state left by [startListening], whatever the back end does. *)
Lemma startListening_voiceState (p : Platform) (b : Backend) (s : Screen) :
  voiceState (exec (startListening p b) s) = emptyVoiceState
  /\ recognizedText (exec (startListening p b) s) = ""
  /\ webRecognition (exec (startListening p b) s) = webRecognition s
  /\ completion (startListening p b) s = Normal tt.
Proof.
  destruct s as [v t w c]. unfold_handlers.
  destruct (isWeb p); [destruct w as [r |] |];
    destruct (start_outcome b) as [| reason];
    unfold_monad; cbn; repeat split; reflexivity.
Qed.

Lemma startListening_calls (p : Platform) (b : Backend) (s : Screen) :
  calls (exec (startListening p b) s) =
  calls s ++ SetVoiceState emptyVoiceState :: SetRecognizedText ""
          :: delegation_calls p b (webRecognition s).
Proof.
  destruct s as [v t w c]. unfold_handlers. unfold delegation_calls.
  destruct (isWeb p); [destruct w as [r |] |];
    destruct (start_outcome b) as [| reason];
    unfold_monad; simp_trace; reflexivity.
Qed.

Lemma delegation_calls_no_state_write (p : Platform) (b : Backend)
    (w : option Recognition) :
  existsb is_state_write (delegation_calls p b w) = false.
Proof.
  unfold delegation_calls.
  destruct (isWeb p); [destruct w as [r |] |];
    destruct (start_outcome b) as [| reason]; reflexivity.
Qed.

(** C1.  From every prior state, [startListening] first installs a
    session record whose [results] and [partialResults] are empty and
    whose [error], [end] and [recognized] are the empty string, then
    clears the display transcript, and only then runs the delegation to
    the back end, which writes no state: the calls it adds to the trace
    are exactly the reset, the transcript reset and the delegation
    calls, in this order, and the record it leaves has the five fields
    at their baseline; in particular [end] is cleared. *)
Theorem C1_start_resets_before_delegating
    (p : Platform) (b : Backend) (s : Screen) :
  exists (v0 : VoiceState) (rest : list Call),
    calls (exec (startListening p b) s) =
      calls s ++ SetVoiceState v0 :: SetRecognizedText "" :: rest
    /\ rest = delegation_calls p b (webRecognition s)
    /\ existsb is_state_write rest = false
    /\ (results v0 = [] /\ partialResults v0 = [] /\ error v0 = ""
        /\ end_ v0 = "" /\ recognized v0 = "")
    /\ voiceState (exec (startListening p b) s) = v0.
Proof.
  exists emptyVoiceState, (delegation_calls p b (webRecognition s)).
  split; [apply startListening_calls |].
  split; [reflexivity |].
  split; [apply delegation_calls_no_state_write |].
  split; [repeat split |].
  apply startListening_voiceState.
Qed.

(** ** The scan of the browser result list *)

Lemma append_empty_r (x : string) : (x ++ "")%string = x.
Proof. induction x as [| a x IH]; cbn; [reflexivity | now rewrite IH]. Qed.

Lemma append_assoc (x y z : string) :
  ((x ++ y) ++ z)%string = (x ++ (y ++ z))%string.
Proof. induction x as [| a x IH]; cbn; [reflexivity | now rewrite IH]. Qed.

Lemma skipn_nth_error {A : Type} (l : list A) (i : nat) (a : A) :
  nth_error l i = Some a -> skipn i l = a :: skipn (S i) l.
Proof.
  revert i. induction l as [| x l IH]; intros [| i] H; cbn in H;
    try discriminate.
  - now inversion H.
  - cbn [skipn]. apply IH in H. exact H.
Qed.

Lemma joined_cons (fin : bool) (r : SpeechRecognitionResult)
    (rs : list SpeechRecognitionResult) :
  joined fin (r :: rs) =
  if Bool.eqb (isFinal r) fin then (transcript0 r ++ joined fin rs)%string
  else joined fin rs.
Proof. unfold joined. cbn. destruct (Bool.eqb (isFinal r) fin); reflexivity. Qed.

(** The loop adds to each accumulator the transcripts of its own kind
    found from index [i] on, in order. *)
Lemma onresult_loop_joined (rs : list SpeechRecognitionResult) :
  forall (trips i : nat) (I F : string),
    trips = List.length rs - i ->
    onresult_loop rs i trips I F =
    ((I ++ joined false (skipn i rs))%string,
     (F ++ joined true (skipn i rs))%string).
Proof.
  induction trips as [| trips IH]; intros i I F Htrips; cbn [onresult_loop].
  - rewrite skipn_all2 by lia. cbn. now rewrite !append_empty_r.
  - destruct (nth_error rs i) as [r |] eqn:Hnth.
    + rewrite (skipn_nth_error _ _ _ Hnth), !joined_cons. cbn zeta.
      destruct (isFinal r); cbn [Bool.eqb];
        rewrite IH by lia; now rewrite append_assoc.
    + apply nth_error_None in Hnth. lia.
Qed.

Lemma onresult_transcripts_joined (event : SpeechRecognitionEvent) :
  onresult_transcripts event =
  (joined false (skipn (resultIndex event) (ev_results event)),
   joined true (skipn (resultIndex event) (ev_results event))).
Proof.
  unfold onresult_transcripts. now rewrite onresult_loop_joined.
Qed.

(** ** Event folding *)

(** What each terminal handler does to the session record. *)
Lemma onSpeechEnd_voiceState (s : Screen) :
  voiceState (exec onSpeechEnd s) =
  with_started false (with_end CHECK_MARK (voiceState s)).
Proof. destruct s; reflexivity. Qed.

Lemma recognition_onend_voiceState (s : Screen) :
  voiceState (exec recognition_onend s) = with_started false (voiceState s).
Proof. destruct s; reflexivity. Qed.

Lemma onSpeechError_voiceState (e : SpeechErrorEvent) (s : Screen) :
  voiceState (exec (onSpeechError e) s) =
  with_started false (with_error (JSON_stringify (err_error e)) (voiceState s)).
Proof. destruct s; reflexivity. Qed.

Lemma recognition_onerror_voiceState (err : string) (s : Screen) :
  voiceState (exec (recognition_onerror err) s) =
  with_error err (with_started false (voiceState s)).
Proof. destruct s; reflexivity. Qed.

(** C2.  Whatever events were folded before, right after an end event
    or an error event of either back end, [started] is [false]. *)
Theorem C2_started_false_after_end_or_error
    (evs : list BackendEvent) (ev : BackendEvent) (s : Screen) :
  is_end_event ev || is_error_event ev = true ->
  started (voiceState (fold_events (evs ++ [ev]) s)) = false.
Proof.
  intros Hterminal. rewrite fold_events_snoc.
  generalize (fold_events evs s); intros s'.
  destruct ev as [[| | | e | e | e | v] | [| event | | err]];
    cbn in Hterminal; try discriminate; cbn [dispatch].
  - rewrite onSpeechEnd_voiceState. reflexivity.
  - rewrite onSpeechError_voiceState. reflexivity.
  - rewrite recognition_onend_voiceState. reflexivity.
  - rewrite recognition_onerror_voiceState. reflexivity.
Qed.

(** C3.  The two end handlers differ.  The native one sets [end] to the
    mark and [started] to [false]; the browser one sets [started] to
    [false] and leaves [end] as it was, so that a browser session that
    starts and ends on a fresh screen finishes with [end] still empty,
    where the same session on the native back end finishes with the
    mark. *)
Theorem C3_browser_end_leaves_end_unset :
  (forall s : Screen,
      end_ (voiceState (exec (dispatch (NativeEv SpeechEnd)) s)) = CHECK_MARK
      /\ started (voiceState (exec (dispatch (NativeEv SpeechEnd)) s)) = false)
  /\ (forall s : Screen,
      end_ (voiceState (exec (dispatch (BrowserEv WebEndEv)) s))
        = end_ (voiceState s)
      /\ started (voiceState (exec (dispatch (BrowserEv WebEndEv)) s)) = false)
  /\ end_ (voiceState
             (fold_events [BrowserEv WebStartEv; BrowserEv WebEndEv]
                          initialScreen)) = ""
  /\ end_ (voiceState
             (fold_events [NativeEv SpeechStart; NativeEv SpeechEnd]
                          initialScreen)) = CHECK_MARK
  /\ CHECK_MARK <> "".
Proof.
  split; [| split; [| split; [| split]]].
  - intros s. cbn [dispatch]. rewrite onSpeechEnd_voiceState. split; reflexivity.
  - intros s. cbn [dispatch]. rewrite recognition_onend_voiceState.
    split; reflexivity.
  - reflexivity.
  - reflexivity.
  - discriminate.
Qed.

(** C4 (as amended).  A final-results event of the native back end with
    a non-empty candidate list replaces [results] by that list and
    publishes its first element as the display transcript; with an
    empty or an absent list it changes neither the session record nor
    the transcript.  A browser result event whose final transcript [F]
    is non-empty replaces [results] by [[F]] and publishes [F]. *)
Theorem C4_final_results_replace_when_nonempty :
  (forall (first : string) (rest : list string) (s : Screen),
      let s' := exec (dispatch (NativeEv (SpeechResults
                        {| value := Some (first :: rest) |}))) s in
      results (voiceState s') = first :: rest
      /\ recognizedText s' = first
      /\ voiceState s' = with_results (first :: rest) (voiceState s))
  /\ (forall (s : Screen),
      let s' := exec (dispatch (NativeEv (SpeechResults
                        {| value := Some [] |}))) s in
      voiceState s' = voiceState s /\ recognizedText s' = recognizedText s)
  /\ (forall (s : Screen),
      let s' := exec (dispatch (NativeEv (SpeechResults
                        {| value := None |}))) s in
      voiceState s' = voiceState s /\ recognizedText s' = recognizedText s)
  /\ (forall (event : SpeechRecognitionEvent) (s : Screen),
      let F := joined true (skipn (resultIndex event) (ev_results event)) in
      let s' := exec (dispatch (BrowserEv (WebResultEv event))) s in
      results (voiceState s')
        = (if truthy F then [F] else results (voiceState s))
      /\ recognizedText s' = (if truthy F then F else recognizedText s)).
Proof.
  split; [| split; [| split]].
  - intros first rest [v t w c]. cbn. repeat split; reflexivity.
  - intros [v t w c]. cbn. split; reflexivity.
  - intros [v t w c]. cbn. split; reflexivity.
  - intros event s. cbn zeta. cbn [dispatch]. unfold exec.
    rewrite recognition_onresult_run, onresult_transcripts_joined.
    cbn [fst snd voiceState recognizedText].
    destruct (truthy (joined true _)), (truthy (joined false _));
      split; reflexivity.
Qed.

(** C10.  An error event of either back end writes only [error] and
    [started]: [results], [partialResults], [recognized], [pitch] and
    [end] keep their values, and so does the display transcript. *)
Theorem C10_error_event_frame :
  (forall (e : SpeechErrorEvent) (s : Screen),
      let s' := exec (dispatch (NativeEv (SpeechError e))) s in
      results (voiceState s') = results (voiceState s)
      /\ partialResults (voiceState s') = partialResults (voiceState s)
      /\ recognized (voiceState s') = recognized (voiceState s)
      /\ pitch (voiceState s') = pitch (voiceState s)
      /\ end_ (voiceState s') = end_ (voiceState s)
      /\ recognizedText s' = recognizedText s
      /\ error (voiceState s') = JSON_stringify (err_error e)
      /\ started (voiceState s') = false)
  /\ (forall (event_error : string) (s : Screen),
      let s' := exec (dispatch (BrowserEv (WebErrorEv event_error))) s in
      results (voiceState s') = results (voiceState s)
      /\ partialResults (voiceState s') = partialResults (voiceState s)
      /\ recognized (voiceState s') = recognized (voiceState s)
      /\ pitch (voiceState s') = pitch (voiceState s)
      /\ end_ (voiceState s') = end_ (voiceState s)
      /\ recognizedText s' = recognizedText s
      /\ error (voiceState s') = event_error
      /\ started (voiceState s') = false).
Proof.
  split.
  - intros e [v t w c]. cbn. repeat split; reflexivity.
  - intros err [v t w c]. cbn. repeat split; reflexivity.
Qed.

(** The native scenario start, two partial results, one final result,
    end: the last partial result is retained next to the final one. *)
Example native_session_book_a_table :
  voiceState
    (fold_events
       [NativeEv SpeechStart;
        NativeEv (SpeechPartialResults {| value := Some ["book a"] |});
        NativeEv (SpeechPartialResults {| value := Some ["book a table"] |});
        NativeEv (SpeechResults {| value := Some ["book a table please"] |});
        NativeEv SpeechEnd]
       initialScreen)
  = {| recognized := ""; pitch := ""; error := ""; end_ := CHECK_MARK;
       started := false; results := ["book a table please"];
       partialResults := ["book a table"] |}.
Proof. reflexivity. Qed.

(** ** The browser result handler *)

(** C5.  One invocation of the browser [onresult] handler, on a result
    range whose final entries concatenate to [F] and whose interim
    entries concatenate to [I], returns normally and makes, in this
    order: when [F] is non-empty, exactly one final-results update
    (the transcript [F] is published and [results] becomes [[F]]), none
    otherwise; when [I] is non-empty, exactly one partial-results update
    ([partialResults] becomes [[I]]), none otherwise.  Both happen in
    the same invocation when both are non-empty. *)
Theorem C5_onresult_one_final_one_partial
    (event : SpeechRecognitionEvent) (s : Screen) :
  let F := joined true (skipn (resultIndex event) (ev_results event)) in
  let I := joined false (skipn (resultIndex event) (ev_results event)) in
  let s' := exec (recognition_onresult event) s in
  let after_final :=
    if truthy F then with_results [F] (voiceState s) else voiceState s in
  completion (recognition_onresult event) s = Normal tt
  /\ calls s' =
       calls s
       ++ (if truthy F
           then [SetRecognizedText F;
                 SetVoiceState (with_results [F] (voiceState s))]
           else [])
       ++ (if truthy I
           then [SetVoiceState (with_partialResults [I] after_final)]
           else [])
  /\ results (voiceState s')
       = (if truthy F then [F] else results (voiceState s))
  /\ partialResults (voiceState s')
       = (if truthy I then [I] else partialResults (voiceState s))
  /\ recognizedText s' = (if truthy F then F else recognizedText s).
Proof.
  cbn zeta. unfold exec, completion.
  rewrite recognition_onresult_run, onresult_transcripts_joined.
  cbn [fst snd voiceState recognizedText calls].
  destruct (truthy (joined true _)), (truthy (joined false _));
    repeat split; reflexivity.
Qed.

(** The scenario of one final entry and one interim entry delivered by
    a single invocation. *)
Example onresult_hello_wor :
  calls (exec (recognition_onresult
                 {| resultIndex := 0;
                    ev_results := [ {| transcript0 := "hello"; isFinal := true |};
                                    {| transcript0 := "wor"; isFinal := false |} ] |})
              initialScreen)
  = [ SetRecognizedText "hello";
      SetVoiceState (with_results ["hello"] emptyVoiceState);
      SetVoiceState (with_partialResults ["wor"]
                       (with_results ["hello"] emptyVoiceState)) ].
Proof. reflexivity. Qed.

(** ** [stopListening] *)

Lemma stopListening_run (p : Platform) (b : Backend) (s : Screen) :
  stopListening p b s =
  (Normal tt,
   {| voiceState := voiceState s; recognizedText := recognizedText s;
      webRecognition := webRecognition s;
      calls := calls s ++ stop_calls p b (webRecognition s) |}).
Proof.
  destruct s as [v t w c]. unfold_handlers. unfold stop_calls.
  destruct (isWeb p); [destruct w as [r |] |];
    destruct (stop_outcome b) as [| reason];
    unfold_monad; simp_trace; rewrite ?app_nil_r; reflexivity.
Qed.

Lemma stop_calls_quiet (p : Platform) (b : Backend) (w : option Recognition) :
  existsb is_state_write (stop_calls p b w) = false
  /\ existsb is_alert (stop_calls p b w) = false
  /\ existsb is_start_call (stop_calls p b w) = false.
Proof.
  unfold stop_calls.
  destruct (isWeb p); [destruct w as [r |] |];
    destruct (stop_outcome b) as [| reason]; repeat split; reflexivity.
Qed.

(** C7.  [stopListening] returns normally from every state, and so in
    particular when no session is active, whether the stop primitive of
    the back end returns or throws.  When it throws, the error is
    written to the console after the call of the primitive and nothing
    else happens: no alert is raised, and the console receives an error
    exactly when the primitive was called and threw. *)
Theorem C7_stop_never_throws (p : Platform) (b : Backend) (s : Screen) :
  completion (stopListening p b) s = Normal tt
  /\ calls (exec (stopListening p b) s)
       = calls s ++ stop_calls p b (webRecognition s)
  /\ existsb is_alert (stop_calls p b (webRecognition s)) = false
  /\ existsb is_console_error (stop_calls p b (webRecognition s))
       = existsb is_stop_call (stop_calls p b (webRecognition s))
         && rejects (stop_outcome b).
Proof.
  unfold completion, exec. rewrite stopListening_run. cbn [fst snd calls].
  repeat split.
  - apply stop_calls_quiet.
  - unfold stop_calls.
    destruct (isWeb p); [destruct (webRecognition s) as [r |] |];
      destruct (stop_outcome b) as [| reason]; reflexivity.
Qed.

(** C8.  [stopListening] leaves the seven fields of the session record
    and the display transcript as they were, and calls no state setter:
    the record is reset by [startListening] only. *)
Theorem C8_stop_frame (p : Platform) (b : Backend) (s : Screen) :
  voiceState (exec (stopListening p b) s) = voiceState s
  /\ recognizedText (exec (stopListening p b) s) = recognizedText s
  /\ calls (exec (stopListening p b) s)
       = calls s ++ stop_calls p b (webRecognition s)
  /\ existsb is_state_write (stop_calls p b (webRecognition s)) = false.
Proof.
  unfold exec. rewrite stopListening_run. cbn [snd voiceState recognizedText calls].
  repeat split. apply stop_calls_quiet.
Qed.

(** ** Runs of a screen without recognition object *)

(** No event handler touches [webRecognition] or calls a start
    primitive. *)
Lemma dispatch_frame (ev : BackendEvent) (s : Screen) :
  webRecognition (exec (dispatch ev) s) = webRecognition s
  /\ existsb is_start_call (calls (exec (dispatch ev) s))
       = existsb is_start_call (calls s).
Proof.
  destruct ev as [[| | | e | e | e | v] | [| event | | err]]; cbn [dispatch];
    try (unfold exec; rewrite recognition_onresult_run;
         cbn [snd webRecognition calls];
         destruct (truthy (snd _)), (truthy (fst _));
         rewrite !existsb_app; cbn; rewrite ?orb_false_r; split; reflexivity);
    destruct s as [v0 t w c]; unfold_handlers.
  all: try match goal with
           | |- context [value ?e] => destruct (value e) as [[| first rest] |]
           end.
  all: unfold_monad; cbn; rewrite ?existsb_app; cbn; rewrite ?orb_false_r;
    split; reflexivity.
Qed.

Lemma startListening_disabled (p : Platform) (b : Backend) (s : Screen) :
  isWeb p = true ->
  webRecognition s = None ->
  delegation_calls p b (webRecognition s)
  = [AlertAlert "Error" "Speech recognition not available"].
Proof.
  intros Hweb Hnone. unfold delegation_calls. now rewrite Hweb, Hnone.
Qed.

(** On the web, a screen without recognition object stays without one
    and never calls a start primitive, whatever is pressed or
    delivered. *)
Lemma run_disabled (p : Platform) (steps : list Step) :
  isWeb p = true ->
  forall s : Screen,
    webRecognition s = None ->
    existsb is_start_call (calls s) = false ->
    webRecognition (run p steps s) = None
    /\ existsb is_start_call (calls (run p steps s)) = false.
Proof.
  intros Hweb. unfold run.
  induction steps as [| a steps IH]; intros s Hnone Hquiet; cbn [fold_left].
  - split; assumption.
  - apply IH; destruct a as [b | b | ev]; cbn [step].
    + destruct (startListening_voiceState p b s) as (_ & _ & Hw & _).
      now rewrite Hw.
    + unfold exec. rewrite stopListening_run. exact Hnone.
    + destruct (dispatch_frame ev s) as [Hw _]. now rewrite Hw.
    + rewrite startListening_calls, (startListening_disabled p b s Hweb Hnone).
      rewrite existsb_app, Hquiet. reflexivity.
    + unfold exec. rewrite stopListening_run. cbn [snd calls].
      rewrite existsb_app, Hquiet.
      destruct (stop_calls_quiet p b (webRecognition s)) as (_ & _ & Hs).
      now rewrite Hs.
    + destruct (dispatch_frame ev s) as [_ Hc]. now rewrite Hc.
Qed.

Lemma mounted_disabled (p : Platform) :
  isWeb p = true ->
  hasWebkitSpeechRecognition p = false ->
  mounted p =
  {| voiceState := emptyVoiceState; recognizedText := "";
     webRecognition := None;
     calls := [AlertAlert "Speech Recognition Not Supported"
       "Your browser does not support speech recognition. Please use Chrome or Safari."] |}.
Proof.
  intros Hweb Hprobe. unfold mounted, mountEffect. now rewrite Hweb, Hprobe.
Qed.

(** C6.  On a platform where the probe finds no speech back end (the
    screen runs on the web and the browser has no recognition
    constructor), the mount effect raises its notice once and stores no
    recognition object; from then on, after any presses and deliveries,
    every [startListening] returns after resetting the state and
    raising the notice that recognition is not available, and no start
    primitive of any back end is ever called. *)
Theorem C6_disabled_start_unsupported
    (p : Platform) (steps : list Step) (b : Backend) :
  isWeb p = true ->
  hasWebkitSpeechRecognition p = false ->
  let s := run p steps (mounted p) in
  completion (startListening p b) s = Normal tt
  /\ calls (exec (startListening p b) s)
       = calls s ++ [SetVoiceState emptyVoiceState; SetRecognizedText "";
                     AlertAlert "Error" "Speech recognition not available"]
  /\ existsb is_start_call (calls (exec (startListening p b) s)) = false
  /\ webRecognition (exec (startListening p b) s) = None.
Proof.
  intros Hweb Hprobe s.
  assert (Hinv : webRecognition s = None
                 /\ existsb is_start_call (calls s) = false).
  { subst s. apply run_disabled; [exact Hweb | |];
      rewrite (mounted_disabled p Hweb Hprobe); reflexivity. }
  destruct Hinv as [Hnone Hquiet].
  destruct (startListening_voiceState p b s) as (_ & _ & Hw & Hc).
  rewrite startListening_calls, (startListening_disabled p b s Hweb Hnone).
  repeat split.
  - exact Hc.
  - rewrite existsb_app, Hquiet. reflexivity.
  - now rewrite Hw.
Qed.

(** ** A start primitive that throws *)

(** C9.  When the screen has an active back end and its start primitive
    throws, [startListening] still returns normally; the session record
    is exactly the empty baseline installed by the reset and the
    transcript is empty; after the call of the primitive the error is
    logged and the alert raised, and no state is written.  A later
    [startListening] calls the start primitive again. *)
Theorem C9_start_failure_leaves_baseline
    (p : Platform) (b b' : Backend) (reason : string) (s : Screen) :
  start_outcome b = Rejects reason ->
  has_active_backend p s = true ->
  let s' := exec (startListening p b) s in
  completion (startListening p b) s = Normal tt
  /\ voiceState s' = emptyVoiceState
  /\ recognizedText s' = ""
  /\ calls s' =
       calls s ++
       [SetVoiceState emptyVoiceState; SetRecognizedText ""; start_call p;
        ConsoleError "Error starting voice recognition:" reason;
        AlertAlert "Error"
          "Failed to start voice recognition. Please check microphone permissions."]
  /\ exists rest : list Call,
       calls (exec (startListening p b') s') =
       calls s' ++ SetVoiceState emptyVoiceState :: SetRecognizedText ""
                :: start_call p :: rest.
Proof.
  intros Hthrows Hactive s'. unfold has_active_backend in Hactive.
  destruct (startListening_voiceState p b s) as (Hv & Ht & Hw & Hc).
  repeat split; try assumption.
  - subst s'. rewrite startListening_calls. unfold delegation_calls, start_call.
    rewrite Hthrows. destruct (isWeb p); [| reflexivity].
    destruct (webRecognition s); [reflexivity | discriminate].
  - subst s'. rewrite startListening_calls, Hw.
    unfold delegation_calls, start_call.
    destruct (isWeb p); [| eexists; reflexivity].
    destruct (webRecognition s); [eexists; reflexivity | discriminate].
Qed.


(** ** The listening flag, the pulse animation and the alerts *)

Ltac split_event ev :=
  destruct ev as [[| | | e | e | e | v] | [| event | | err]]; cbn [dispatch].

Ltac run_handler s :=
  first
    [ unfold exec; rewrite recognition_onresult_run;
      cbn [snd fst voiceState recognizedText webRecognition calls];
      destruct (truthy (snd _)), (truthy (fst _))
    | destruct s as [v0 t0 w0 c0]; unfold_handlers;
      try match goal with
          | |- context [value ?e] => destruct (value e) as [[| first rest] |]
          end;
      unfold_monad; cbn ].

Lemma dispatch_started (ev : BackendEvent) (s : Screen) :
  started (voiceState (exec (dispatch ev) s))
  = next_listening (started (voiceState s)) ev.
Proof. split_event ev; run_handler s; reflexivity. Qed.

Lemma dispatch_pulsing (ev : BackendEvent) (s : Screen) :
  pulsing (calls (exec (dispatch ev) s)) = next_listening (pulsing (calls s)) ev.
Proof.
  unfold pulsing.
  split_event ev; run_handler s; rewrite ?fold_left_app; reflexivity.
Qed.

Lemma dispatch_alerts (ev : BackendEvent) (s : Screen) :
  filter is_alert (calls (exec (dispatch ev) s))
  = filter is_alert (calls s) ++ error_alert ev.
Proof.
  split_event ev; run_handler s; rewrite ?filter_app; cbn;
    rewrite ?app_nil_r; reflexivity.
Qed.

Lemma micButton_started (p : Platform) (b : Backend) (s : Screen) :
  started (voiceState (exec (micButton_onPress p b) s)) = started (voiceState s).
Proof.
  unfold exec, micButton_onPress.
  destruct (started (voiceState s)) eqn:Hstarted.
  - rewrite stopListening_run. exact Hstarted.
  - destruct (startListening_voiceState p b s) as (Hv & _).
    unfold exec in Hv. now rewrite Hv.
Qed.

Lemma micButton_pulsing (p : Platform) (b : Backend) (s : Screen) :
  pulsing (calls (exec (micButton_onPress p b) s)) = pulsing (calls s).
Proof.
  unfold exec, micButton_onPress.
  destruct (started (voiceState s)).
  - rewrite stopListening_run. cbn [snd calls]. unfold pulsing, stop_calls.
    rewrite fold_left_app.
    destruct (isWeb p); [destruct (webRecognition s) |];
      destruct (stop_outcome b); reflexivity.
  - fold (exec (startListening p b) s). rewrite startListening_calls.
    unfold pulsing, delegation_calls. rewrite fold_left_app.
    destruct (isWeb p); [destruct (webRecognition s) |];
      destruct (start_outcome b); reflexivity.
Qed.

(** X1.  With the mic button as the only way to start and stop, the
    [started] flag follows the delivered events alone: it is the flag
    left by the last start, end or error event, and a press of the
    button never changes it. *)
Theorem started_follows_events_only
    (p : Platform) (gs : list Gesture) (s : Screen) :
  started (voiceState (session p gs s))
  = fold_left next_listening (events_of gs) (started (voiceState s)).
Proof.
  unfold session. revert s.
  induction gs as [| g gs IH]; intros s; cbn [fold_left events_of flat_map].
  - reflexivity.
  - rewrite IH. destruct g as [b | ev]; cbn [react app].
    + now rewrite micButton_started.
    + fold (events_of gs). now rewrite dispatch_started.
Qed.

(** X2.  On a screen used through the mic button, the pulse animation
    runs exactly while [started] is [true]: after any presses and
    deliveries since mount, the last pulse call in the trace is a start
    of the animation if and only if the flag is set. *)
Theorem pulse_animation_tracks_started (p : Platform) (gs : list Gesture) :
  pulsing (calls (session p gs (mounted p)))
  = started (voiceState (session p gs (mounted p))).
Proof.
  assert (Hgen : forall s, pulsing (calls s) = started (voiceState s) ->
            pulsing (calls (session p gs s))
            = started (voiceState (session p gs s))).
  { unfold session. induction gs as [| g gs IH]; intros s Hs; cbn [fold_left].
    - exact Hs.
    - apply IH. destruct g as [b | ev]; cbn [react].
      + now rewrite micButton_pulsing, micButton_started.
      + now rewrite dispatch_pulsing, dispatch_started, Hs. }
  apply Hgen. unfold mounted, mountEffect.
  destruct (isWeb p); [destruct (hasWebkitSpeechRecognition p) |]; reflexivity.
Qed.

(** X3.  The alerts raised while events are folded are exactly those of
    the error events, one each and in order of delivery; no other event
    raises an alert. *)
Theorem alerts_are_those_of_error_events
    (evs : list BackendEvent) (s : Screen) :
  filter is_alert (calls (fold_events evs s))
  = filter is_alert (calls s) ++ flat_map error_alert evs.
Proof.
  unfold fold_events. revert s.
  induction evs as [| ev evs IH]; intros s; cbn [fold_left flat_map].
  - now rewrite app_nil_r.
  - rewrite IH, dispatch_alerts, <- app_assoc. reflexivity.
Qed.

(** X4.  The alert of a native error event never shows an empty reason:
    its text is the message of the error object when there is a
    non-empty one, and [Unknown error] when the object, its message, or
    the text of the message is missing. *)
Theorem native_error_alert_reason :
  (forall e : SpeechErrorEvent, truthy (error_message_or_unknown e) = true)
  /\ (forall (e : SpeechErrorEvent) (s : Screen),
        last (calls (exec (onSpeechError e) s)) StopPulseAnimation
        = AlertAlert "Speech Recognition Error"
                     ("Error: " ++ error_message_or_unknown e))
  /\ error_message_or_unknown {| err_error := None |} = "Unknown error"
  /\ (forall c : option string,
        error_message_or_unknown
          {| err_error := Some {| code := c; message := None |} |}
        = "Unknown error")
  /\ (forall c : option string,
        error_message_or_unknown
          {| err_error := Some {| code := c; message := Some "" |} |}
        = "Unknown error")
  /\ (forall (c : option string) (a : Ascii.ascii) (m : string),
        error_message_or_unknown
          {| err_error := Some {| code := c; message := Some (String a m) |} |}
        = String a m).
Proof.
  repeat split.
  - intros [[[c [[| a m] |]] |]]; reflexivity.
  - intros e [v t w c]. unfold_handlers. unfold_monad. cbn.
    apply last_last.
Qed.

(** ** Invariants of the stored candidates *)

Lemma dispatch_transcript_head (ev : BackendEvent) (s : Screen) :
  recognizedText s = hd "" (results (voiceState s)) ->
  recognizedText (exec (dispatch ev) s)
  = hd "" (results (voiceState (exec (dispatch ev) s))).
Proof. split_event ev; run_handler s; cbn; intros H; auto. Qed.

Lemma run_webRecognition (p : Platform) (steps : list Step) (s : Screen) :
  webRecognition (run p steps s) = webRecognition s.
Proof.
  unfold run. revert s.
  induction steps as [| a steps IH]; intros s; cbn [fold_left];
    [reflexivity |].
  rewrite IH. destruct a as [b | b | ev]; cbn [step].
  - apply startListening_voiceState.
  - unfold exec. now rewrite stopListening_run.
  - apply dispatch_frame.
Qed.

(** X5.  On every screen reached from mount, by any presses and any
    deliveries of either back end, the display transcript is the first
    entry of [results], and is empty when [results] is empty. *)
Theorem transcript_is_first_result (p : Platform) (steps : list Step) :
  recognizedText (run p steps (mounted p))
  = hd "" (results (voiceState (run p steps (mounted p)))).
Proof.
  assert (Hgen : forall s, recognizedText s = hd "" (results (voiceState s)) ->
            recognizedText (run p steps s)
            = hd "" (results (voiceState (run p steps s)))).
  { unfold run. induction steps as [| a steps IH]; intros s Hs;
      cbn [fold_left]; [exact Hs |].
    apply IH. destruct a as [b | b | ev]; cbn [step].
    - destruct (startListening_voiceState p b s) as (Hv & Ht & _).
      now rewrite Hv, Ht.
    - unfold exec. rewrite stopListening_run. exact Hs.
    - now apply dispatch_transcript_head. }
  apply Hgen. unfold mounted, mountEffect.
  destruct (isWeb p); [destruct (hasWebkitSpeechRecognition p) |]; reflexivity.
Qed.

Lemma browser_event_singletons (e : WebEvent) (s : Screen) :
  singleton_nonempty (results (voiceState s)) = true ->
  singleton_nonempty (partialResults (voiceState s)) = true ->
  singleton_nonempty (results (voiceState (exec (dispatch (BrowserEv e)) s)))
    = true
  /\ singleton_nonempty
       (partialResults (voiceState (exec (dispatch (BrowserEv e)) s))) = true.
Proof.
  destruct e as [| event | | err]; cbn [dispatch];
    try (destruct s as [v t w c]; cbn; intros Hr Hp; split; assumption).
  unfold exec. rewrite recognition_onresult_run.
  cbn [snd voiceState]. intros Hr Hp.
  destruct (truthy (snd (onresult_transcripts event))) eqn:HF;
    destruct (truthy (fst (onresult_transcripts event))) eqn:HI;
    cbn; unfold singleton_nonempty; cbn; rewrite ?HF, ?HI;
    split; first [reflexivity | assumption].
Qed.

(** X6.  On the browser back end every stored candidate list has at
    most one entry and no empty string: this holds for [results] and
    for [partialResults] after any presses and any browser events since
    mount. *)
Theorem browser_candidates_are_singletons
    (p : Platform) (steps : list Step) :
  forallb is_browser_step steps = true ->
  singleton_nonempty (results (voiceState (run p steps (mounted p)))) = true
  /\ singleton_nonempty
       (partialResults (voiceState (run p steps (mounted p)))) = true.
Proof.
  assert (Hgen : forall s,
            forallb is_browser_step steps = true ->
            singleton_nonempty (results (voiceState s)) = true ->
            singleton_nonempty (partialResults (voiceState s)) = true ->
            singleton_nonempty (results (voiceState (run p steps s))) = true
            /\ singleton_nonempty
                 (partialResults (voiceState (run p steps s))) = true).
  { unfold run. induction steps as [| a steps IH]; intros s Hall Hr Hp;
      cbn [fold_left]; [split; assumption |].
    cbn [forallb] in Hall. apply andb_prop in Hall as [Ha Hall].
    destruct a as [b | b | [e | e]]; cbn [step]; cbn in Ha;
      try discriminate.
    - destruct (startListening_voiceState p b s) as (Hv & _).
      apply IH; [exact Hall | |]; now rewrite Hv.
    - unfold exec. rewrite stopListening_run. now apply IH.
    - destruct (browser_event_singletons e s Hr Hp) as [Hr' Hp'].
      now apply IH. }
  intros Hall. apply Hgen; [exact Hall | |];
    unfold mounted, mountEffect;
    destruct (isWeb p); [destruct (hasWebkitSpeechRecognition p) | |
                         destruct (hasWebkitSpeechRecognition p) |];
    reflexivity.
Qed.

Lemma browser_event_leaves_native_fields (e : WebEvent) (s : Screen) :
  recognized (voiceState (exec (dispatch (BrowserEv e)) s))
    = recognized (voiceState s)
  /\ pitch (voiceState (exec (dispatch (BrowserEv e)) s)) = pitch (voiceState s)
  /\ end_ (voiceState (exec (dispatch (BrowserEv e)) s)) = end_ (voiceState s).
Proof.
  destruct e as [| event | | err]; cbn [dispatch]; run_handler s;
    repeat split; reflexivity.
Qed.

(** X7.  The handlers of the browser back end never write [recognized],
    [pitch] or [end]: after any sequence of browser events the three
    fields are what they were. *)
Theorem browser_events_leave_recognized_pitch_end
    (evs : list BackendEvent) (s : Screen) :
  forallb is_browser_event evs = true ->
  recognized (voiceState (fold_events evs s)) = recognized (voiceState s)
  /\ pitch (voiceState (fold_events evs s)) = pitch (voiceState s)
  /\ end_ (voiceState (fold_events evs s)) = end_ (voiceState s).
Proof.
  unfold fold_events. revert s.
  induction evs as [| ev evs IH]; intros s Hall; cbn [fold_left].
  - repeat split.
  - cbn [forallb] in Hall. apply andb_prop in Hall as [Hev Hall].
    destruct ev as [e | e]; [discriminate |].
    destruct (IH (exec (dispatch (BrowserEv e)) s) Hall) as (H1 & H2 & H3).
    destruct (browser_event_leaves_native_fields e s) as (K1 & K2 & K3).
    rewrite H1, H2, H3. repeat split; assumption.
Qed.

(** ** The range read by the browser result handler *)

(** X8.  The browser [onresult] handler reads the entries from
    [resultIndex] on and nothing else: the entries before the index
    have no influence on what it does. *)
Theorem onresult_reads_from_resultIndex
    (event : SpeechRecognitionEvent) (s : Screen) :
  recognition_onresult event s
  = recognition_onresult
      {| resultIndex := 0;
         ev_results := skipn (resultIndex event) (ev_results event) |} s.
Proof.
  rewrite !recognition_onresult_run, !onresult_transcripts_joined.
  reflexivity.
Qed.

(** X9.  When [resultIndex] is at or past the end of the result list,
    the browser [onresult] handler returns without any call and leaves
    the screen as it was. *)
Theorem onresult_empty_range_is_noop
    (event : SpeechRecognitionEvent) (s : Screen) :
  List.length (ev_results event) <= resultIndex event ->
  recognition_onresult event s = (Normal tt, s).
Proof.
  intros Hrange.
  rewrite recognition_onresult_run, onresult_transcripts_joined.
  rewrite skipn_all2 by exact Hrange.
  destruct s as [v t w c]. cbn. now rewrite app_nil_r.
Qed.

Lemma string_length_append (a b : string) :
  String.length (a ++ b) = String.length a + String.length b.
Proof. induction a as [| c a IH]; cbn; [reflexivity | now rewrite IH]. Qed.

(** X18.  The scan of the browser result list loses and repeats
    nothing: the final and the interim transcript together are as long
    as all the transcripts of the range read. *)
Theorem onresult_transcripts_keep_all_text (event : SpeechRecognitionEvent) :
  String.length (fst (onresult_transcripts event))
  + String.length (snd (onresult_transcripts event))
  = list_sum (map (fun r => String.length (transcript0 r))
                  (skipn (resultIndex event) (ev_results event))).
Proof.
  rewrite onresult_transcripts_joined. cbn [fst snd].
  generalize (skipn (resultIndex event) (ev_results event)) as l.
  unfold list_sum.
  induction l as [| r l IH]; [reflexivity |].
  rewrite !joined_cons. cbn [map fold_right]. rewrite <- IH.
  destruct (isFinal r); cbn [Bool.eqb]; rewrite string_length_append; lia.
Qed.

Lemma joined_other_kind_empty (fin : bool) (l : list SpeechRecognitionResult) :
  forallb (fun r => Bool.eqb (isFinal r) fin) l = true ->
  joined (negb fin) l = "".
Proof.
  induction l as [| r l IH]; intros Hall; [reflexivity |].
  cbn [forallb] in Hall. apply andb_prop in Hall as [Hr Hall].
  rewrite joined_cons, (IH Hall).
  apply Bool.eqb_prop in Hr. subst fin. now destruct (isFinal r).
Qed.

(** X19.  When all the entries read by the browser [onresult] handler
    are of one kind, the other kind of update is not made: a range of
    final entries leaves [partialResults] as it was, so an earlier
    interim candidate stays stored; a range of interim entries leaves
    [results] and the transcript as they were. *)
Theorem onresult_one_kind_leaves_other_update_out
    (fin : bool) (event : SpeechRecognitionEvent) (s : Screen) :
  forallb (fun r => Bool.eqb (isFinal r) fin)
          (skipn (resultIndex event) (ev_results event)) = true ->
  let s' := exec (recognition_onresult event) s in
  if fin
  then partialResults (voiceState s') = partialResults (voiceState s)
  else results (voiceState s') = results (voiceState s)
       /\ recognizedText s' = recognizedText s.
Proof.
  intros Hall. apply joined_other_kind_empty in Hall.
  cbn zeta. unfold exec.
  rewrite recognition_onresult_run, onresult_transcripts_joined.
  cbn [fst snd voiceState recognizedText].
  destruct fin; cbn [negb] in Hall; rewrite Hall; cbn [truthy].
  - now destruct (truthy (joined true _)).
  - now destruct (truthy (joined false _)).
Qed.

(** ** What the screen shows *)

(** X10.  A partial-results event of the native back end stores its
    candidate list verbatim, the empty list included, and leaves
    [results] and the transcript alone; the question text then shows
    the published transcript if there is one, else the first partial
    candidate, else the placeholder.  An event without list changes
    nothing. *)
Theorem native_partial_results_stored_verbatim :
  (forall (l : list string) (s : Screen),
      let s' := exec (dispatch (NativeEv (SpeechPartialResults
                        {| value := Some l |}))) s in
      partialResults (voiceState s') = l
      /\ results (voiceState s') = results (voiceState s)
      /\ recognizedText s' = recognizedText s
      /\ questionText s' =
           (if truthy (recognizedText s) then recognizedText s
            else match l with
                 | first :: _ => first
                 | [] => PLACEHOLDER_QUESTION
                 end))
  /\ (forall s : Screen,
      let s' := exec (dispatch (NativeEv (SpeechPartialResults
                        {| value := None |}))) s in
      voiceState s' = voiceState s /\ recognizedText s' = recognizedText s).
Proof.
  split.
  - intros l [v t w c]. cbn. repeat split; reflexivity.
  - intros [v t w c]. cbn. split; reflexivity.
Qed.

(** X11.  Right after [startListening], whatever the prior state and
    whether or not the back end could start, the question text is the
    placeholder and the status text is empty. *)
Theorem start_shows_placeholder (p : Platform) (b : Backend) (s : Screen) :
  questionText (exec (startListening p b) s) = PLACEHOLDER_QUESTION
  /\ statusText (exec (startListening p b) s) = "".
Proof.
  destruct (startListening_voiceState p b s) as (Hv & Ht & _).
  unfold questionText, statusText. rewrite Hv, Ht. split; reflexivity.
Qed.

Lemma dispatch_keeps_transcript (ev : BackendEvent) (s : Screen) :
  is_results_event ev = false ->
  recognizedText (exec (dispatch ev) s) = recognizedText s.
Proof.
  split_event ev; intros Hev; try discriminate; run_handler s; reflexivity.
Qed.

(** X12.  A published transcript stays on display until the next start
    or the next results event: stop presses and all other events,
    partial results included, leave the question text equal to it. *)
Theorem published_transcript_stays_displayed
    (p : Platform) (steps : list Step) (s : Screen) :
  truthy (recognizedText s) = true ->
  forallb keeps_transcript steps = true ->
  recognizedText (run p steps s) = recognizedText s
  /\ questionText (run p steps s) = recognizedText s.
Proof.
  intros Hshown Hall.
  assert (Hkept : recognizedText (run p steps s) = recognizedText s).
  { clear Hshown. unfold run. revert s.
    induction steps as [| a steps IH]; intros s; cbn [fold_left];
      [reflexivity |].
    cbn [forallb] in Hall. apply andb_prop in Hall as [Ha Hall].
    rewrite (IH Hall). destruct a as [b | b | ev]; cbn [step]; cbn in Ha.
    - discriminate.
    - unfold exec. now rewrite stopListening_run.
    - apply dispatch_keeps_transcript. now destruct (is_results_event ev). }
  split; [exact Hkept |].
  unfold questionText. now rewrite Hkept, Hshown.
Qed.

(** ** The back end chosen at mount *)

(** X13.  The back end is chosen once, by the mount effect, and stays:
    after any presses and deliveries the screen has a back end to
    delegate to exactly when the platform is native or the browser has
    the recognition constructor, and the mount effect raises its notice
    exactly in the remaining case. *)
Theorem backend_choice_is_fixed_at_mount (p : Platform) (steps : list Step) :
  has_active_backend p (run p steps (mounted p))
  = negb (isWeb p) || hasWebkitSpeechRecognition p
  /\ webRecognition (run p steps (mounted p))
     = (if isWeb p && hasWebkitSpeechRecognition p
        then Some newRecognition else None)
  /\ existsb is_alert (calls (mounted p))
     = isWeb p && negb (hasWebkitSpeechRecognition p).
Proof.
  unfold has_active_backend. rewrite run_webRecognition.
  unfold mounted, mountEffect.
  destruct (isWeb p); [destruct (hasWebkitSpeechRecognition p) |];
    repeat split; reflexivity.
Qed.

Lemma calls_made_app {C : Type} (before made : list C) :
  calls_made before (before ++ made) = made.
Proof.
  unfold calls_made. rewrite skipn_app, skipn_all, Nat.sub_diag. reflexivity.
Qed.

(** X14.  [startListening] never throws.  It calls a start primitive
    exactly once when the screen has a back end and not at all
    otherwise, and it raises exactly one alert unless the back end is
    there and its start primitive returns, in which case it raises
    none. *)
Theorem startListening_one_start_or_one_alert
    (p : Platform) (b : Backend) (s : Screen) :
  let made := calls_made (calls s) (calls (exec (startListening p b) s)) in
  completion (startListening p b) s = Normal tt
  /\ List.length (filter is_start_call made)
     = (if has_active_backend p s then 1 else 0)
  /\ List.length (filter is_alert made)
     = (if has_active_backend p s && negb (rejects (start_outcome b))
        then 0 else 1).
Proof.
  cbn zeta. rewrite startListening_calls, calls_made_app.
  split; [apply startListening_voiceState |].
  unfold delegation_calls, has_active_backend.
  destruct (isWeb p); [destruct (webRecognition s) |];
    destruct (start_outcome b); split; reflexivity.
Qed.

Lemma micButton_while_started (p : Platform) (b : Backend) (s : Screen) :
  started (voiceState s) = true ->
  exec (micButton_onPress p b) s = exec (stopListening p b) s.
Proof. intros H. unfold exec, micButton_onPress. now rewrite H. Qed.

(** X15.  While a session is listening, the mic button only asks the
    back end to stop: as long as no end or error event arrives, any
    number of presses leaves [started] set and calls no start
    primitive, so the session is neither restarted nor reset by the
    button. *)
Theorem mic_presses_while_listening_never_restart
    (p : Platform) (gs : list Gesture) (s : Screen) :
  started (voiceState s) = true ->
  forallb stays_listening gs = true ->
  started (voiceState (session p gs s)) = true
  /\ existsb is_start_call (calls (session p gs s))
     = existsb is_start_call (calls s).
Proof.
  unfold session. revert s.
  induction gs as [| g gs IH]; intros s Hs Hall; cbn [fold_left].
  - split; [exact Hs | reflexivity].
  - cbn [forallb] in Hall. apply andb_prop in Hall as [Hg Hall].
    destruct g as [b | ev]; cbn [react]; cbn in Hg.
    + rewrite (micButton_while_started p b s Hs).
      assert (Hs' : started (voiceState (exec (stopListening p b) s)) = true).
      { unfold exec. now rewrite stopListening_run. }
      destruct (IH _ Hs' Hall) as [H1 H2]. split; [exact H1 |].
      rewrite H2. unfold exec. rewrite stopListening_run. cbn [snd calls].
      rewrite existsb_app.
      destruct (stop_calls_quiet p b (webRecognition s)) as (_ & _ & Hq).
      rewrite Hq. apply orb_false_r.
    + assert (Hs' : started (voiceState (exec (dispatch ev) s)) = true).
      { rewrite dispatch_started, Hs. unfold next_listening.
        destruct (is_start_event ev); [reflexivity |].
        now destruct (is_end_event ev || is_error_event ev). }
      destruct (IH _ Hs' Hall) as [H1 H2]. split; [exact H1 |].
      rewrite H2. apply dispatch_frame.
Qed.

(** ** Image selection *)



(** X17.  [pickImage] opens the image library exactly when the
    permission is granted (a refusal raises the alert instead), and it
    changes the selected image only when the library returns at least
    one asset, to the address of the first one. *)
Theorem pickImage_launches_only_with_permission
    (env : PickerAnswers) (g : ImageState) :
  let made := calls_made (picker_calls g) (picker_calls (pickImage env g)) in
  existsb is_launch made = granted env
  /\ (granted env = false /\
        made = [RequestMediaLibraryPermissions;
                PickerAlert "Permission required"
                  "Permission to access camera roll is required!"]
      \/ granted env = true)
  /\ (selectedImage (pickImage env g) = selectedImage g
      \/ exists (first : ImagePickerAsset) (rest : list ImagePickerAsset),
           granted env = true
           /\ launch_result env = PickerSuccess (first :: rest)
           /\ selectedImage (pickImage env g) = Some (uri first)).
Proof.
  cbn zeta. unfold pickImage.
  destruct (granted env); cbn [negb].
  - destruct (launch_result env) as [| [| first rest]] eqn:Hres;
      cbn [picker_calls selectedImage]; rewrite <- ?app_assoc;
      rewrite calls_made_app; (split; [reflexivity |]);
      (split; [right; reflexivity |]).
    + left; reflexivity.
    + left; reflexivity.
    + right. exists first, rest. repeat split.
  - cbn [picker_calls selectedImage]. rewrite <- app_assoc, calls_made_app.
    split; [reflexivity |]. split; [left; split; reflexivity |].
    left; reflexivity.
Qed.
End Controller.

(** ** Concrete runs *)

(** C2 on a native session that starts, produces a partial result and
    ends. *)
Lemma C2_witness_native_session :
  is_end_event (NativeEv SpeechEnd) || is_error_event (NativeEv SpeechEnd) = true
  /\ started (voiceState
       (fold_events render_error
          ([NativeEv SpeechStart;
            NativeEv (SpeechPartialResults {| value := Some ["book a"] |})]
           ++ [NativeEv SpeechEnd])
          initialScreen)) = false.
Proof.
  split; [reflexivity |].
  apply (C2_started_false_after_end_or_error render_error
           [NativeEv SpeechStart;
            NativeEv (SpeechPartialResults {| value := Some ["book a"] |})]
           (NativeEv SpeechEnd) initialScreen).
  reflexivity.
Defined.

(** C4 as first stated fails on the native back end: a final-results
    event carrying the empty candidate list does not replace a
    non-empty [results]. *)
Lemma C4_counterexample_empty_list_ignored :
  let s := {| voiceState := with_results ["book a table"] emptyVoiceState;
              recognizedText := "book a table";
              webRecognition := None; calls := [] |} in
  let e := {| value := Some [] |} in
  results (voiceState (exec (dispatch render_error (NativeEv (SpeechResults e))) s))
    = ["book a table"]
  /\ value e = Some []
  /\ results (voiceState (exec (dispatch render_error (NativeEv (SpeechResults e))) s))
    <> [].
Proof.
  cbn. repeat split. discriminate.
Qed.

(** C6 on a browser without recognition constructor: the mic button is
    pressed twice, with a stray event in between. *)
Lemma C6_witness_browser_without_recognition :
  let p := {| OS := "web"; hasWebkitSpeechRecognition := false |} in
  let b := {| start_outcome := Resolves; stop_outcome := Resolves |} in
  let steps := [PressStart b; Deliver (BrowserEv WebEndEv); PressStop b] in
  isWeb p = true
  /\ hasWebkitSpeechRecognition p = false
  /\ (let s := run render_error p steps (mounted p) in
      completion (startListening p b) s = Normal tt
      /\ calls (exec (startListening p b) s)
           = calls s ++ [SetVoiceState emptyVoiceState; SetRecognizedText "";
                         AlertAlert "Error" "Speech recognition not available"]
      /\ existsb is_start_call (calls (exec (startListening p b) s)) = false
      /\ webRecognition (exec (startListening p b) s) = None).
Proof.
  intros p b steps.
  split; [reflexivity |]. split; [reflexivity |].
  apply (C6_disabled_start_unsupported render_error p steps b);
    reflexivity.
Defined.

(** C9 on a native platform whose start primitive rejects for lack of
    the microphone permission, from a state left by an earlier
    session. *)
Lemma C9_witness_permission_denied :
  let p := {| OS := "android"; hasWebkitSpeechRecognition := false |} in
  let b := {| start_outcome := Rejects "permission denied";
              stop_outcome := Resolves |} in
  let b' := {| start_outcome := Resolves; stop_outcome := Resolves |} in
  let s := {| voiceState :=
                {| recognized := CHECK_MARK; pitch := "3"; error := "";
                   end_ := CHECK_MARK; started := false;
                   results := ["book a table please"];
                   partialResults := ["book a table"] |};
              recognizedText := "book a table please";
              webRecognition := None; calls := [] |} in
  start_outcome b = Rejects "permission denied"
  /\ has_active_backend p s = true
  /\ (let s' := exec (startListening p b) s in
      completion (startListening p b) s = Normal tt
      /\ voiceState s' = emptyVoiceState
      /\ recognizedText s' = ""
      /\ calls s' =
           calls s ++
           [SetVoiceState emptyVoiceState; SetRecognizedText ""; start_call p;
            ConsoleError "Error starting voice recognition:" "permission denied";
            AlertAlert "Error"
              "Failed to start voice recognition. Please check microphone permissions."]
      /\ exists rest : list Call,
           calls (exec (startListening p b') s') =
           calls s' ++ SetVoiceState emptyVoiceState :: SetRecognizedText ""
                    :: start_call p :: rest).
Proof.
  intros p b b' s.
  split; [reflexivity |]. split; [reflexivity |].
  apply (C9_start_failure_leaves_baseline p b b' "permission denied" s);
    reflexivity.
Defined.

(** A browser session with one result event carrying a final and an
    interim entry. *)
Lemma browser_candidates_are_singletons_witness :
  let p := {| OS := "web"; hasWebkitSpeechRecognition := true |} in
  let b := {| start_outcome := Resolves; stop_outcome := Resolves |} in
  let steps :=
    [PressStart b;
     Deliver (BrowserEv WebStartEv);
     Deliver (BrowserEv (WebResultEv
       {| resultIndex := 0;
          ev_results := [ {| transcript0 := "hello"; isFinal := true |};
                          {| transcript0 := "wor"; isFinal := false |} ] |}));
     Deliver (BrowserEv WebEndEv)] in
  forallb is_browser_step steps = true
  /\ singleton_nonempty
       (results (voiceState (run render_error p steps (mounted p)))) = true
  /\ singleton_nonempty
       (partialResults (voiceState (run render_error p steps (mounted p))))
     = true.
Proof.
  intros p b steps. split; [reflexivity |].
  apply (browser_candidates_are_singletons render_error p steps).
  reflexivity.
Defined.

(** A browser session that fails, on a record left by a native one. *)
Lemma browser_events_leave_recognized_pitch_end_witness :
  let s := {| voiceState :=
                {| recognized := CHECK_MARK; pitch := "3"; error := "";
                   end_ := CHECK_MARK; started := false;
                   results := []; partialResults := [] |};
              recognizedText := ""; webRecognition := Some newRecognition;
              calls := [] |} in
  let evs := [BrowserEv WebStartEv; BrowserEv (WebErrorEv "no-speech")] in
  forallb is_browser_event evs = true
  /\ recognized (voiceState (fold_events render_error evs s))
     = recognized (voiceState s)
  /\ pitch (voiceState (fold_events render_error evs s)) = pitch (voiceState s)
  /\ end_ (voiceState (fold_events render_error evs s)) = end_ (voiceState s).
Proof.
  intros s evs. split; [reflexivity |].
  apply (browser_events_leave_recognized_pitch_end render_error evs s).
  reflexivity.
Defined.

(** A result event whose index points past its single entry. *)
Lemma onresult_empty_range_is_noop_witness :
  let event := {| resultIndex := 2;
                  ev_results := [ {| transcript0 := "hello";
                                     isFinal := true |} ] |} in
  List.length (ev_results event) <= resultIndex event
  /\ recognition_onresult event initialScreen = (Normal tt, initialScreen).
Proof.
  intros event. split; [simpl; lia |].
  apply (onresult_empty_range_is_noop event initialScreen).
  simpl; lia.
Defined.

(** A published transcript, then a stop press, a late partial result
    and the end of the session. *)
Lemma published_transcript_stays_displayed_witness :
  let p := {| OS := "ios"; hasWebkitSpeechRecognition := false |} in
  let b := {| start_outcome := Resolves; stop_outcome := Resolves |} in
  let s := {| voiceState :=
                with_started true
                  (with_results ["book a table please"] emptyVoiceState);
              recognizedText := "book a table please";
              webRecognition := None; calls := [] |} in
  let steps :=
    [PressStop b;
     Deliver (NativeEv (SpeechPartialResults {| value := Some ["and"] |}));
     Deliver (NativeEv SpeechEnd)] in
  truthy (recognizedText s) = true
  /\ forallb keeps_transcript steps = true
  /\ recognizedText (run render_error p steps s) = recognizedText s
  /\ questionText (run render_error p steps s) = recognizedText s.
Proof.
  intros p b s steps.
  split; [reflexivity |]. split; [reflexivity |].
  apply (published_transcript_stays_displayed render_error p steps s);
    reflexivity.
Defined.

(** Two presses of the mic button and a volume report during a
    session. *)
Lemma mic_presses_while_listening_never_restart_witness :
  let p := {| OS := "android"; hasWebkitSpeechRecognition := false |} in
  let b := {| start_outcome := Resolves; stop_outcome := Resolves |} in
  let s := {| voiceState := with_started true emptyVoiceState;
              recognizedText := ""; webRecognition := None;
              calls := [VoiceStart "en-US"] |} in
  let gs := [PressMic b; PressMic b;
             Receive (NativeEv (SpeechVolumeChanged "3"))] in
  started (voiceState s) = true
  /\ forallb stays_listening gs = true
  /\ started (voiceState (session render_error p gs s)) = true
  /\ existsb is_start_call (calls (session render_error p gs s))
     = existsb is_start_call (calls s).
Proof.
  intros p b s gs.
  split; [reflexivity |]. split; [reflexivity |].
  apply (mic_presses_while_listening_never_restart render_error p gs s);
    reflexivity.
Defined.


(** A final entry delivered after an interim candidate was stored. *)
Lemma onresult_one_kind_leaves_other_update_out_witness :
  let event := {| resultIndex := 0;
                  ev_results := [ {| transcript0 := "world";
                                     isFinal := true |} ] |} in
  let s := {| voiceState := with_partialResults ["wor"] emptyVoiceState;
              recognizedText := ""; webRecognition := Some newRecognition;
              calls := [] |} in
  forallb (fun r => Bool.eqb (isFinal r) true)
          (skipn (resultIndex event) (ev_results event)) = true
  /\ partialResults (voiceState (exec (recognition_onresult event) s))
     = partialResults (voiceState s).
Proof.
  intros event s. split; [reflexivity |].
  apply (onresult_one_kind_leaves_other_update_out true event s).
  reflexivity.
Defined.
